(** * The Notion ranking writer

    A model of [notion_writers/NotionWriter.py] and [notion_writers/utils.py]:
    the base class that keeps a Notion database in step with a squash players
    ranking.  Python objects are values of [value]; a method that talks to
    Notion or reads the clock is a computation over the outside world that
    may raise. *)

From stdpp Require Import base option list strings gmap pretty.
From Stdlib Require Import ZArith Ascii.

#[local] Set Warnings "-register-all".

(** ** Python values *)

(** The objects the writer handles: what [json] decodes and what the page
    dictionaries are made of.  A [dict] keeps its items in insertion order
    and its keys are strings; a list of items that repeats a key stands for
    the dict of the first binding of each key.  Floats are left out. *)
Inductive value : Type :=
  | VNone
  | VBool (b : bool)
  | VInt (n : Z)
  | VStr (s : string)
  | VList (items : list value)
  | VDict (items : list (string * value)).

Abbreviation dict := (list (string * value)).

(** [d.get(key)]: the value bound to [key], if any. *)
Fixpoint dict_get (d : dict) (key : string) : option value :=
  match d with
  | [] => None
  | (k, v) :: rest => if decide (k = key) then Some v else dict_get rest key
  end.

(** [d[key] = v]: rebinds [key] where it stands, or adds it at the end. *)
Fixpoint dict_set (d : dict) (key : string) (v : value) : dict :=
  match d with
  | [] => [(key, v)]
  | (k, w) :: rest =>
      if decide (k = key) then (k, v) :: rest else (k, w) :: dict_set rest key v
  end.

(** [list(d)]: the keys, in order. *)
Definition dict_keys (d : dict) : list string := d.*1.

(** The exceptions that reach a caller of the writer.  Each of them is an
    instance of Python's [Exception]. *)
Inductive exn : Type :=
  | Exception (arg : value)
  | KeyError (key : string)
  | TypeError
  | JSONDecodeError.

(** The outcome of evaluating an expression: a value, or a raised exception. *)
Inductive result (A : Type) : Type :=
  | Ok (a : A)
  | Raise (e : exn).
Arguments Ok {A} a.
Arguments Raise {A} e.

Definition is_raise {A} (r : result A) : bool :=
  match r with Ok _ => false | Raise _ => true end.

(** [obj[key]] for a string [key]: a dict is looked up, anything else cannot be
    indexed by a string. *)
Definition getitem (obj : value) (key : string) : result value :=
  match obj with
  | VDict d =>
      match dict_get d key with
      | Some v => Ok v
      | None => Raise (KeyError key)
      end
  | _ => Raise TypeError
  end.

(** [obj[k1][k2]...], if every step finds its key. *)
Definition lookup_path (keys : list string) (obj : value) : option value :=
  foldl (λ found key,
           match found with
           | Some o => match getitem o key with Ok v => Some v | Raise _ => None end
           | None => None
           end)
        (Some obj) keys.

(** The items a [for] loop draws from [obj]: the elements of a list, the keys
    of a dict, the one-character strings of a string (a character is a byte
    here).  Other objects are not iterable. *)
Definition iter (obj : value) : result (list value) :=
  match obj with
  | VList items => Ok items
  | VDict d => Ok (VStr <$> dict_keys d)
  | VStr s => Ok ((λ c, VStr (String c EmptyString)) <$> String.list_ascii_of_string s)
  | _ => Raise TypeError
  end.

(** [obj == n] for an integer literal [n]: booleans compare as 0 and 1, and an
    object that is not a number equals no integer.  A float would compare by
    value ([1.0 == 1]); floats are no [value], so this says nothing of
    them. *)
Definition eq_int (obj : value) (n : Z) : bool :=
  match obj with
  | VInt m => bool_decide (m = n)
  | VBool b => bool_decide ((if b then 1 else 0)%Z = n)
  | _ => false
  end.

(** ** Dates *)

(** A [datetime.date]. *)
Record date := { year : N; month : N; day : N }.


(** ["%0{width}d" % n]: the decimal digits of [n], padded with zeros on the
    left up to [width]. *)
Definition zfill (width : nat) (n : N) : string :=
  let digits := pretty n in
  String.string_of_list_ascii (replicate (width - String.length digits) "0"%char)
    +:+ digits.

(** [str(d)], which is [d.isoformat()]: ["%04d-%02d-%02d"]. *)
Definition date_str (d : date) : string :=
  zfill 4 (year d) +:+ "-" +:+ zfill 2 (month d) +:+ "-" +:+ zfill 2 (day d).




(** ** HTTP *)

(** The text of a request or response body.  JSON text is kept as the value it
    encodes, so that [json_dumps] writes it and [json] reads it back; any
    other text has no JSON reading. *)
Inductive body : Type :=
  | JsonText (v : value)
  | PlainText (s : string).

Definition json_dumps (v : value) : body := JsonText v.

(** What [requests.request] is called with. *)
Record Request := {
  url : string;
  method : string;
  headers : list (string * string);
  data : option body
}.

(** What the writer reads of a [requests.Response]. *)
Record Response := {
  ok : bool;
  text : body
}.

(** [res.json()]. *)
Definition json (res : Response) : result value :=
  match text res with
  | JsonText v => Ok v
  | PlainText _ => Raise JSONDecodeError
  end.

(** ** The class attributes and static methods of [NotionWriter] *)

(** The items of [NotionWriter.countries], as the dict display lists them. *)
Definition countries_items : list (string * string) := [
    ("EGY", "🇪🇬 Egypt");
    ("NZL", "🇳🇿 New Zealand");
    ("ENG", "🇬🇧 England");
    ("PER", "🇵🇪 Peru");
    ("FRA", "🇫🇷 France");
    ("WAL", "🏴󠁧󠁢󠁷󠁬󠁳󠁿 Wales");
    ("COL", "🇨🇴 Colombia");
    ("IND", "🇮🇳 India");
    ("SUI", "🇨🇭 Switzerland");
    ("GER", "🇩🇪 Germany");
    ("USA", "🇺🇸 United States");
    ("QAT", "🇶🇦 Qatar");
    ("SCO", "🏴󠁧󠁢󠁳󠁣󠁴󠁿 Scotland");
    ("MEX", "🇲🇽 Mexico");
    ("ESP", "🇪🇸 Spain");
    ("HKG", "🇭🇰 Hong-Kong");
    ("PAK", "🇵🇰 Pakistan");
    ("HUN", "🇭🇺 Hungary");
    ("POR", "🇵🇹 Portugal");
    ("ARG", "🇦🇷 Argentina");
    ("CAN", "🇨🇦 Canada");
    ("MAS", "🇲🇾 Malaysia");
    ("JPN", "🇯🇵 Japan");
    ("GUA", "🇬🇹 Guatemala");
    ("BEL", "🇧🇪 Belgium");
    ("RSA", "🇿🇦 South Africa")
  ].

(** [NotionWriter.countries]: the supported countries. *)
Definition countries : gmap string string := list_to_map countries_items.

(** [NotionWriter.get_player_emoji]. *)
Definition get_player_emoji (player_rank : value) : string :=
  if eq_int player_rank 1 then "🏅"
  else if eq_int player_rank 2 then "🥈"
  else if eq_int player_rank 3 then "🥉"
  else "👤".

(** [NotionWriter.get_player_country]. *)
Definition get_player_country (player_country : string) : string :=
  match countries !! player_country with
  | Some label => label
  | None => player_country
  end.

(** ** Computations over the outside world *)

(** A computation reads and changes a state of type [S] and ends with a value
    or with a raised exception; what it did before raising stays done. *)
Definition M (S A : Type) : Type := S → result A * S.

Definition ret {S A} (a : A) : M S A := λ st, (Ok a, st).

Definition raise {S A} (e : exn) : M S A := λ st, (Raise e, st).

Definition bind {S A B} (c : M S A) (k : A → M S B) : M S B :=
  λ st, match c st with
        | (Ok a, st') => k a st'
        | (Raise e, st') => (Raise e, st')
        end.

(** An expression that only computes: its outcome, the state left alone. *)
Definition lift {S A} (r : result A) : M S A := λ st, (r, st).

Notation "'let*' x ':=' c 'in' k" := (bind c (λ x, k))
  (at level 10, x name, c at level 100, k at level 200).

Section NotionWriter.

Context {World : Type}.

(** [requests.request]: one blocking round trip to the Notion API. *)
Variable request : Request → World → Response * World.

(** [datetime.now().date()]: a reading of the clock. *)
Variable today : World → date * World.

(** [str(obj)], which an f-string applies to the object it interpolates. *)
Variable str : value → string.

(** The state a method runs in: the outside world, and the requests sent so
    far, each with the response it got. *)
Record state := {
  world : World;
  exchanges : list (Request * Response)
}.

(** The request [utils.query_notion] builds. *)
Definition notion_request (endpoint : string) (method : string)
    (data : option body) (notion_api_key : string) : Request :=
  let headers := [
    ("Authorization", "Bearer " +:+ notion_api_key);
    ("Notion-Version", "2022-06-28");
    ("Content-Type", "application/json")
  ] in
  {| url := "https://api.notion.com/v1" +:+ endpoint;
     method := method;
     headers := headers;
     data := data |}.

(** [utils.query_notion]: sends the request and hands back the response. *)
Definition query_notion (endpoint : string) (method : string)
    (data : option body) (notion_api_key : string) : M state Response :=
  λ st,
    let req := notion_request endpoint method data notion_api_key in
    let out := request req (world st) in
    (Ok out.1,
     {| world := out.2; exchanges := exchanges st ++ [(req, out.1)] |}).

(** The attributes of a [NotionWriter] instance. *)
Record NotionWriter := {
  notion_api_key : string;
  db_id : string
}.

(** [NotionWriter.__init__]: the instance is the value of the computation, so
    a raise leaves none behind. *)
Definition __init__ (notion_api_key : string) (db_id : string)
    : M state NotionWriter :=
  let* res := query_notion ("/databases/" +:+ db_id) "GET" None notion_api_key in
  if negb (ok res) then
    let* answer := lift (json res) in
    let* message := lift (getitem answer "message") in
    raise (Exception message)
  else
    ret {| notion_api_key := notion_api_key; db_id := db_id |}.

(** The loop of [get_current_pages_id]: [pages_id.append(page["id"])] for each
    page left. *)
Fixpoint append_pages_id (pages : list value) (pages_id : list value)
    : result (list value) :=
  match pages with
  | [] => Ok pages_id
  | page :: rest =>
      match getitem page "id" with
      | Ok id => append_pages_id rest (pages_id ++ [id])
      | Raise e => Raise e
      end
  end.

(** [NotionWriter.get_current_pages_id]. *)
Definition get_current_pages_id (self : NotionWriter)
    : M state (list value) :=
  let* res := query_notion ("/databases/" +:+ db_id self +:+ "/query") "POST"
                None (notion_api_key self) in
  let* answer := lift (json res) in
  let* results := lift (getitem answer "results") in
  let* pages := lift (iter results) in
  lift (append_pages_id pages []).

(** The request [delete_pages] sends for one page. *)
Definition archive_request (self : NotionWriter) (page_id : value) : Request :=
  notion_request ("/pages/" +:+ str page_id) "PATCH"
    (Some (json_dumps (VDict [("archived", VBool true)])))
    (notion_api_key self).

(** [NotionWriter.delete_pages]. *)
Fixpoint delete_pages (self : NotionWriter) (pages_id : list value)
    : M state bool :=
  match pages_id with
  | [] => ret true
  | page_id :: rest =>
      let* response := query_notion ("/pages/" +:+ str page_id) "PATCH"
                         (Some (json_dumps (VDict [("archived", VBool true)])))
                         (notion_api_key self) in
      if negb (ok response) then ret false else delete_pages self rest
  end.

(** [NotionWriter.build_page_object]. *)
Definition build_page_object (self : NotionWriter) (page_info : dict)
    (to_post : bool) : M state dict :=
  let* icon_rank := lift (getitem (VDict page_info) "rank") in
  let* name := lift (getitem (VDict page_info) "name") in
  let* rank := lift (getitem (VDict page_info) "rank") in
  let* now := (λ st, let out := today (world st) in
                     (Ok out.1, {| world := out.2; exchanges := exchanges st |})) in
  let page_object := [
    ("icon", VDict [("emoji", VStr (get_player_emoji icon_rank))]);
    ("properties", VDict [
      ("Player's name", VDict [
        ("title", VList [
          VDict [
            ("type", VStr "text");
            ("text", VDict [("content", name)])
          ]
        ])
      ]);
      ("Rank", VDict [("number", rank)]);
      ("Date", VDict [
        ("date", VDict [
          ("start", VStr (date_str now));
          ("end", VNone);
          ("time_zone", VNone)
        ])
      ])
    ])
  ] in
  ret (if to_post
       then dict_set page_object "parent"
              (VDict [("database_id", VStr (db_id self))])
       else page_object).

(** Modelled from the spec: step 3 of [update_db], the insertion loop of the
    concrete writer, whose file is not among the sources.  For each entity in
    input order it builds the page object for insertion and submits a
    create-page request; the first request the store turns down ends the run
    with [False]. *)
Fixpoint insert_pages (self : NotionWriter) (players_ranking : list dict)
    : M state bool :=
  match players_ranking with
  | [] => ret true
  | page_info :: rest =>
      let* page_object := build_page_object self page_info true in
      let* response := query_notion "/pages" "POST"
                         (Some (json_dumps (VDict page_object)))
                         (notion_api_key self) in
      if negb (ok response) then ret false else insert_pages self rest
  end.

(** Modelled from the spec: [update_db] of the concrete writer, which
    [NotionWriter] only declares ([@abstractmethod], body [pass]).  Fetch the
    current page ids, delete them and give up with [False] if that fails,
    then insert a page per entity; [True] only if every insertion went
    through. *)
Definition update_db (self : NotionWriter) (players_ranking : list dict)
    : M state bool :=
  let* pages_id := get_current_pages_id self in
  let* deleted := delete_pages self pages_id in
  if negb deleted then ret false else insert_pages self players_ranking.

End NotionWriter.

Arguments state : clear implicits.

(** ** The page store *)

(** Modelled from the spec: a Page, the store's record of one ranked entity
    (the hosted database service itself is outside the repository).
    [archived] is the mark a soft-delete leaves. *)
Record Page := {
  page_id : string;
  title : string;
  rank : Z;
  icon : string;
  created_date : string;
  archived : bool
}.

(** Modelled from the spec: the state of the PageStore, the hosted database
    service behind the four calls of its contract.  It holds one database,
    open to one credential; [created] counts the pages made so far and
    names the next one; a query answers with a single page of at most
    [page_size] results; [faults] says which of the coming requests fail
    whatever they ask ([true]: that request is turned down); [clock] is the
    day. *)
Record Store := {
  database : string;
  credential : string;
  pages : list Page;
  created : nat;
  page_size : nat;
  faults : list bool;
  clock : date
}.

Definition set_pages (ps : list Page) (s : Store) : Store :=
  {| database := database s; credential := credential s; pages := ps;
     created := created s; page_size := page_size s; faults := faults s;
     clock := clock s |}.

Definition set_created (n : nat) (s : Store) : Store :=
  {| database := database s; credential := credential s; pages := pages s;
     created := n; page_size := page_size s; faults := faults s;
     clock := clock s |}.

Definition set_faults (fs : list bool) (s : Store) : Store :=
  {| database := database s; credential := credential s; pages := pages s;
     created := created s; page_size := page_size s; faults := fs;
     clock := clock s |}.

(** The pages in active view: those not archived. *)
Definition active (s : Store) : list Page :=
  filter (λ p, archived p = false) (pages s).

(** Every active page fits in the single page of results a query returns. *)
Definition fits (s : Store) : Prop := length (active s) ≤ page_size s.

Definition archive (p : Page) : Page :=
  {| page_id := page_id p; title := title p; rank := rank p; icon := icon p;
     created_date := created_date p; archived := true |}.

Definition api : string := "https://api.notion.com/v1".

Definition page_url (id : string) : string := api +:+ "/pages/" +:+ id.

(** An error response: not [ok], with the reason under ["message"]. *)
Definition refusal (message : string) : Response :=
  {| ok := false;
     text := JsonText (VDict [("object", VStr "error");
                              ("message", VStr message)]) |}.

Definition answer (v : value) : Response :=
  {| ok := true; text := JsonText v |}.

Definition page_json (p : Page) : value :=
  VDict [("object", VStr "page"); ("id", VStr (page_id p))].

(** Modelled from the spec: the Page a create-page payload describes, under
    the payload schema of the spec's external interfaces; [None] when the
    payload does not follow the schema or names another database. *)
Definition read_page (s : Store) (payload : value) : option Page :=
  match lookup_path ["parent"; "database_id"] payload,
        lookup_path ["icon"; "emoji"] payload,
        lookup_path ["properties"; "Player's name"; "title"] payload,
        lookup_path ["properties"; "Rank"; "number"] payload,
        lookup_path ["properties"; "Date"; "date"; "start"] payload with
  | Some (VStr parent), Some (VStr emoji), Some (VList [rich_text]),
    Some (VInt number), Some (VStr start) =>
      match lookup_path ["text"; "content"] rich_text with
      | Some (VStr content) =>
          if decide (parent = database s) then
            Some {| page_id := pretty (created s); title := content;
                    rank := number; icon := emoji; created_date := start;
                    archived := false |}
          else None
      | _ => None
      end
  | _, _, _, _, _ => None
  end.

(** Modelled from the spec: [query_pages], a single page of results. *)
Definition store_query (s : Store) : Response :=
  answer (VDict [("object", VStr "list");
                 ("results",
                  VList (page_json <$> take (page_size s) (active s)))]).

(** The pages, with those at [url] archived. *)
Definition archive_at (url : string) (ps : list Page) : list Page :=
  (λ p, if decide (page_url (page_id p) = url) then archive p else p) <$> ps.

(** The pages, with those of each id archived in turn. *)
Definition archive_all (ids : list string) (ps : list Page) : list Page :=
  foldl (λ ps id, archive_at (page_url id) ps) ps ids.

(** Modelled from the spec: [archive_page], the soft-delete of the pages at
    [url]; an error when there is none. *)
Definition store_archive (url : string) (s : Store) : Response * Store :=
  if bool_decide (Exists (λ p, page_url (page_id p) = url) (pages s)) then
    (answer (VDict [("object", VStr "page"); ("archived", VBool true)]),
     set_pages (archive_at url (pages s)) s)
  else (refusal "Could not find page.", s).

(** Modelled from the spec: [create_page], the insertion of the page the
    payload describes, after the pages already there. *)
Definition store_create (payload : value) (s : Store) : Response * Store :=
  match read_page s payload with
  | Some p =>
      (answer (page_json p),
       set_created (S (created s)) (set_pages (pages s ++ [p]) s))
  | None => (refusal "Body failed validation.", s)
  end.

(** Modelled from the spec: the four calls of the PageStore contract as the
    REST calls the writer makes, for a request that is not failing. *)
Definition serve (req : Request) (s : Store) : Response * Store :=
  if negb (bool_decide
             (("Authorization", "Bearer " +:+ credential s) ∈ headers req))
  then (refusal "API token is invalid.", s)
  else if bool_decide (method req = "GET"
            ∧ url req = api +:+ "/databases/" +:+ database s)
  then (answer (VDict [("object", VStr "database");
                       ("id", VStr (database s))]), s)
  else if bool_decide (method req = "POST"
            ∧ url req = api +:+ "/databases/" +:+ database s +:+ "/query")
  then (store_query s, s)
  else if bool_decide (method req = "PATCH")
  then match data req with
       | Some (JsonText update) =>
           match lookup_path ["archived"] update with
           | Some (VBool true) => store_archive (url req) s
           | _ => (refusal "Body failed validation.", s)
           end
       | _ => (refusal "Error parsing JSON body.", s)
       end
  else if bool_decide (method req = "POST" ∧ url req = api +:+ "/pages")
  then match data req with
       | Some (JsonText payload) => store_create payload s
       | _ => (refusal "Error parsing JSON body.", s)
       end
  else (refusal "Could not find what the request names.", s).

(** The store once the head of [faults] is used up. *)
Definition next (s : Store) : Store := set_faults (tail (faults s)) s.

(** Modelled from the spec: one round trip to the store.  Each request uses
    up the head of [faults]; a request marked as failing gets an error and
    changes nothing else. *)
Definition handle (req : Request) (s : Store) : Response * Store :=
  match faults s with
  | true :: _ => (refusal "Service unavailable.", next s)
  | _ => serve req (next s)
  end.

(** The store's day. *)
Definition read_clock (s : Store) : date * Store := (clock s, s).

(** [str] on the objects the store hands out as ids, which are strings. *)
Definition str_of_id (obj : value) : string :=
  match obj with VStr s => s | _ => EmptyString end.


(** ** The writer and the store together *)

(** The store takes the writer's key and holds the writer's database. *)
Definition authorized (self : NotionWriter) (s : Store) : Prop :=
  notion_api_key self = credential s ∧ db_id self = database s.

(** The request [get_current_pages_id] sends. *)
Definition list_request (self : NotionWriter) : Request :=
  notion_request ("/databases/" +:+ db_id self +:+ "/query") "POST" None
    (notion_api_key self).

(** The request the insertion loop sends for one page object. *)
Definition create_request (self : NotionWriter) (page_object : dict) : Request :=
  notion_request "/pages" "POST" (Some (json_dumps (VDict page_object)))
    (notion_api_key self).

(** Page [p], made on [day], is the page of the entity [page_info]: active,
    titled with its name, holding its rank and the emoji of that rank. *)
Definition shows (day : date) (p : Page) (page_info : dict) : Prop :=
  archived p = false
  ∧ dict_get page_info "name" = Some (VStr (title p))
  ∧ dict_get page_info "rank" = Some (VInt (rank p))
  ∧ icon p = get_player_emoji (VInt (rank p))
  ∧ created_date p = date_str day.

(** ** Test doubles and example data *)

(** A transport that plays back a script: each request gets the next response
    of the script, and an error once the script is over. *)
Definition playback (req : Request) (script : list Response)
    : Response * list Response :=
  match script with
  | res :: rest => (res, rest)
  | [] => (refusal "No response left.", [])
  end.

Definition a_day : date := {| year := 2024; month := 3; day := 7 |}.

Definition alice : dict :=
  [("name", VStr "Alice"); ("rank", VInt 1); ("country", VStr "FRA")].

Definition bob : dict :=
  [("name", VStr "Bob"); ("rank", VInt 2); ("country", VStr "USA")].

Definition old_page (id : string) : Page :=
  {| page_id := id; title := "Old"; rank := 9; icon := "👤";
     created_date := "2024-01-01"; archived := false |}.

(** A store holding the active pages P1 and P2. *)
Definition a_store (size : nat) (fs : list bool) : Store :=
  {| database := "db"; credential := "secret";
     pages := [old_page "P1"; old_page "P2"]; created := 0;
     page_size := size; faults := fs; clock := a_day |}.

Definition a_writer : NotionWriter :=
  {| notion_api_key := "secret"; db_id := "db" |}.

(** The state of a run that starts in world [w], nothing sent yet. *)
Definition start {World : Type} (w : World) : state World :=
  {| world := w; exchanges := [] |}.

(** A store holding the active pages P1, P2 and P3. *)
Definition a_store_of_three (fs : list bool) : Store :=
  set_pages [old_page "P1"; old_page "P2"; old_page "P3"] (a_store 100 fs).

(** Alice again, with no country and her fields in another order. *)
Definition alice_stateless : dict :=
  [("rank", VInt 1); ("name", VStr "Alice")].

(** The listing of a store whose one result has no id. *)
Definition listing_without_id : Response :=
  answer (VDict [("object", VStr "list");
                 ("results", VList [VDict [("object", VStr "page")]])]).

(** Scenario 1 of the spec: a sync of Alice and Bob over P1 and P2. *)
Definition sync_run : result bool * state Store :=
  update_db handle read_clock str_of_id a_writer [alice; bob]
    (start (a_store 100 [])).

(** A sync of Alice alone over P1 and P2, when a query returns one result. *)
Definition stale_run : result bool * state Store :=
  update_db handle read_clock str_of_id a_writer [alice]
    (start (a_store 1 [])).

(** A sync of the empty ranking whose first archive request fails. *)
Definition rejected_run : result bool * state Store :=
  update_db handle read_clock str_of_id a_writer []
    (start (a_store 100 [false; true])).

(** A sync of the empty ranking when a query returns one result. *)
Definition short_run : result bool * state Store :=
  update_db handle read_clock str_of_id a_writer []
    (start (a_store 1 [])).

(** ** What the writer's requests look like *)

(** A request made out by [utils.query_notion] for [key]: addressed under
    the root of the Notion API, with the three headers, the key in the
    first. *)
Definition signed (key : string) (req : Request) : Prop :=
  headers req = [("Authorization", "Bearer " +:+ key);
                 ("Notion-Version", "2022-06-28");
                 ("Content-Type", "application/json")]
  ∧ ∃ endpoint, url req = "https://api.notion.com/v1" +:+ endpoint.

(** The shape of the codes of [NotionWriter.countries]: three capital
    letters. *)
Definition is_capital (c : ascii) : bool :=
  bool_decide (c ∈ String.list_ascii_of_string "ABCDEFGHIJKLMNOPQRSTUVWXYZ").

Definition is_code_shaped (s : string) : bool :=
  bool_decide (String.length s = 3)
  && forallb is_capital (String.list_ascii_of_string s).

(** A transport script for building a writer and listing one page. *)
Definition a_script : list Response :=
  [answer (VDict [("object", VStr "database")]);
   answer (VDict [("object", VStr "list");
                  ("results", VList [VDict [("id", VStr "P1")]])])].

(** ** What a transport answers *)

(** The requests [reqs] sent one after the other from world [w]: the
    responses they get, in order, and the world they leave. *)
Fixpoint send_all {World : Type}
    (request : Request → World → Response * World)
    (reqs : list Request) (w : World) : list Response * World :=
  match reqs with
  | [] => ([], w)
  | req :: rest =>
      let out := request req w in
      let later := send_all request rest out.2 in
      (out.1 :: later.1, later.2)
  end.

(** [res.json()["message"]]: what [__init__] reads of a response that is not
    [ok], to raise it. *)
Definition error_message (res : Response) : result value :=
  match json res with
  | Ok answer => getitem answer "message"
  | Raise e => Raise e
  end.

(** An error response whose body has no message. *)
Definition refusal_without_message : Response :=
  {| ok := false; text := JsonText (VDict [("object", VStr "error")]) |}.

(** * Properties *)

(** ** Dates *)



(** ** The presentation rules *)

(** C7. For every integer rank, [get_player_emoji] gives the gold medal for
    1, the silver one for 2, the bronze one for 3, and the bust for every
    other integer, zero and the negative ones included. *)
Theorem get_player_emoji_by_rank (r : Z) :
  (r = 1%Z → get_player_emoji (VInt r) = "🏅")
  ∧ (r = 2%Z → get_player_emoji (VInt r) = "🥈")
  ∧ (r = 3%Z → get_player_emoji (VInt r) = "🥉")
  ∧ (r ≠ 1%Z → r ≠ 2%Z → r ≠ 3%Z → get_player_emoji (VInt r) = "👤").
Proof.
  unfold get_player_emoji, eq_int.
  repeat split; intros; subst; try reflexivity.
  repeat case_bool_decide; congruence.
Qed.

Lemma countries_keys_distinct : NoDup countries_items.*1.
Proof. apply (bool_decide_unpack _). vm_compute. exact I. Qed.


(** ** The methods of the writer, against any transport *)

Section Writer.

Context {World : Type}.
Variable request : Request → World → Response * World.
Variable today : World → date * World.
Variable str : value → string.

Lemma build_page_object_run (self : NotionWriter) (page_info : dict)
    (name rank : value) (to_post : bool) (st : state World) :
  dict_get page_info "name" = Some name →
  dict_get page_info "rank" = Some rank →
  build_page_object today self page_info to_post st =
    (Ok ([("icon", VDict [("emoji", VStr (get_player_emoji rank))]);
          ("properties", VDict [
             ("Player's name", VDict [
                ("title", VList [
                   VDict [("type", VStr "text");
                          ("text", VDict [("content", name)])]])]);
             ("Rank", VDict [("number", rank)]);
             ("Date", VDict [
                ("date", VDict [
                   ("start", VStr (date_str (today (world st)).1));
                   ("end", VNone);
                   ("time_zone", VNone)])])])]
         ++ (if to_post
             then [("parent", VDict [("database_id", VStr (db_id self))])]
             else [])),
     {| world := (today (world st)).2; exchanges := exchanges st |}).
Proof.
  intros Hname Hrank.
  unfold build_page_object, bind, lift, ret, getitem.
  rewrite Hname, Hrank. by destruct to_post.
Qed.

(** C5. The page object built for insertion holds, under ["parent"], the
    database id the writer was set up with; the page object built with
    [to_post] false has no ["parent"] at all. *)
Theorem build_page_object_parent (self : NotionWriter) (page_info : dict)
    (name rank : value) (st : state World) :
  dict_get page_info "name" = Some name →
  dict_get page_info "rank" = Some rank →
  (∃ page, (build_page_object today self page_info true st).1 = Ok page
     ∧ dict_get page "parent"
       = Some (VDict [("database_id", VStr (db_id self))])
     ∧ lookup_path ["parent"; "database_id"] (VDict page)
       = Some (VStr (db_id self)))
  ∧ (∃ page, (build_page_object today self page_info false st).1 = Ok page
       ∧ dict_get page "parent" = None
       ∧ "parent" ∉ dict_keys page).
Proof.
  intros Hname Hrank. split; eexists;
    (split; [by erewrite build_page_object_run|]).
  - by split.
  - split; [done|]. by apply (bool_decide_unpack _).
Qed.


(** X1. An entity with no ["rank"] makes [build_page_object] raise
    [KeyError] for ["rank"], and one with a rank and no ["name"] raise it for
    ["name"]; either way the clock is not read and nothing is sent. *)
Theorem build_page_object_missing_field (self : NotionWriter)
    (page_info : dict) (to_post : bool) (st : state World) :
  (dict_get page_info "rank" = None →
   build_page_object today self page_info to_post st
   = (Raise (KeyError "rank"), st))
  ∧ (∀ rank, dict_get page_info "rank" = Some rank →
     dict_get page_info "name" = None →
     build_page_object today self page_info to_post st
     = (Raise (KeyError "name"), st)).
Proof.
  unfold build_page_object, bind, lift, getitem. split.
  - by intros ->.
  - by intros rank -> ->.
Qed.

(** C9. The page object does not depend on the entity's country: two entities
    with the same name and the same rank get the same page object, on the
    same day and for the same [to_post], whatever else they hold. *)
Theorem build_page_object_ignores_country (self : NotionWriter)
    (entity1 entity2 : dict) (to_post : bool) (st : state World) :
  dict_get entity1 "name" = dict_get entity2 "name" →
  dict_get entity1 "rank" = dict_get entity2 "rank" →
  build_page_object today self entity1 to_post st
  = build_page_object today self entity2 to_post st.
Proof.
  intros Hname Hrank.
  unfold build_page_object, bind, lift, getitem.
  by rewrite Hname, Hrank.
Qed.

(** C2. [delete_pages] sends the archive requests of the ids in the order
    given, one after the other, and what it records of each is what the
    store answered; at the first one the store turns down it stops and
    returns [False], so no later id is asked for; it returns [False] only
    after such an answer, and [True] exactly when it has sent the request of
    every id and each was accepted. *)
Theorem delete_pages_stops_at_first_rejection (self : NotionWriter)
    (pages_id : list value) (st : state World) :
  let run := delete_pages request str self pages_id st in
  ∃ sent : list (Request * Response),
    exchanges run.2 = exchanges st ++ sent
    ∧ length sent ≤ length pages_id
    ∧ sent.*1 = archive_request str self <$> take (length sent) pages_id
    ∧ send_all request sent.*1 (world st) = (sent.*2, world run.2)
    ∧ (∀ k x, sent !! k = Some x → ok x.2 = false →
         length sent = S k ∧ run.1 = Ok false)
    ∧ (run.1 = Ok true ↔
         length sent = length pages_id ∧ Forall (λ x, ok x.2 = true) sent)
    ∧ (run.1 = Ok false ↔ ∃ x, last sent = Some x ∧ ok x.2 = false)
    ∧ (run.1 = Ok true ∨ run.1 = Ok false).
Proof.
  revert st. induction pages_id as [|page_id rest IH]; intros st; simpl.
  - exists []. rewrite app_nil_r.
    split; [done|]. split; [done|]. split; [done|]. split; [done|].
    split; [|split; [|split]].
    + intros k x Hk. by rewrite lookup_nil in Hk.
    + done.
    + split; [done|]. by intros (x & Hx & _).
    + by left.
  - unfold bind, query_notion. fold (archive_request str self page_id).
    set (req := archive_request str self page_id).
    set (out := request req (world st)).
    destruct (ok out.1) eqn:Hok; simpl.
    + destruct (IH {| world := out.2;
                      exchanges := exchanges st ++ [(req, out.1)] |})
        as (sent & Hsent & Hlen & Hreqs & Hsend & Hstop & Htrue & Hfalse
            & Hbool).
      exists ((req, out.1) :: sent). cbn [length exchanges world] in *.
      split; [by rewrite Hsent, <- app_assoc|].
      split; [lia|].
      split; [by rewrite fmap_cons, Hreqs|].
      split.
      { rewrite !fmap_cons. cbn [fst snd send_all]. fold out.
        by rewrite Hsend. }
      split.
      * intros [|k] x Hk Hx; simpl in Hk.
        -- injection Hk as <-. simpl in Hx. congruence.
        -- destruct (Hstop k x Hk Hx) as [-> ->]. done.
      * split; [|split; [|done]].
        -- rewrite Htrue. split.
           ++ intros [-> Hall]. split; [done|]. by constructor.
           ++ intros [Hl Hall]. split; [lia|]. by inversion Hall.
        -- rewrite Hfalse. destruct sent as [|y sent'].
           ++ split; [by intros (x & Hx & _)|].
              intros (x & [= <-] & Hx). simpl in Hx. congruence.
           ++ done.
    + exists [(req, out.1)]. simpl.
      split; [done|]. split; [lia|]. split; [done|]. split; [done|].
      split; [|split; [|split]].
      * intros [|k] x Hk Hx; simpl in Hk; [done|].
        by rewrite lookup_nil in Hk.
      * split; [discriminate|].
        intros [_ Hall]. inversion Hall; simpl in *; congruence.
      * split; [|done]. intros _. by exists (req, out.1).
      * by right.
Qed.

End Writer.

(** ** Listing the current pages *)

Lemma append_pages_id_all (pages ids pages_id : list value) :
  Forall2 (λ page id, getitem page "id" = Ok id) pages ids →
  append_pages_id pages pages_id = Ok (pages_id ++ ids).
Proof.
  intros Hids. revert pages_id.
  induction Hids as [|page id pages ids Hid _ IH]; intros pages_id; simpl.
  - by rewrite app_nil_r.
  - by rewrite Hid, IH, <- app_assoc.
Qed.

Lemma append_pages_id_raises (pages pages_id : list value) :
  Exists (λ page, is_raise (getitem page "id") = true) pages →
  is_raise (append_pages_id pages pages_id) = true.
Proof.
  intros Hbad. revert pages_id.
  induction Hbad as [page pages Hpage|page pages _ IH]; intros pages_id; simpl.
  - by destruct (getitem page "id").
  - destruct (getitem page "id"); [apply IH|done].
Qed.

(** C10, amended. [get_current_pages_id] reads the body of the response and
    never its [ok] flag.  When the body has a ["results"] list whose
    elements each have an ["id"], it returns those ids in the order of the
    list, the empty list for no results; when an element has no ["id"], or
    when the body has no ["results"], it raises. *)
Theorem get_current_pages_id_reads_results {World : Type}
    (request : Request → World → Response * World)
    (self : NotionWriter) (st : state World) :
  let req := notion_request ("/databases/" +:+ db_id self +:+ "/query")
               "POST" None (notion_api_key self) in
  let res := (request req (world st)).1 in
  let run := get_current_pages_id request self st in
  exchanges run.2 = exchanges st ++ [(req, res)]
  ∧ (∀ request' : Request → World → Response * World,
       text (request' req (world st)).1 = text res →
       (get_current_pages_id request' self st).1 = run.1)
  ∧ (∀ answer pages ids,
       json res = Ok answer →
       getitem answer "results" = Ok (VList pages) →
       Forall2 (λ page id, getitem page "id" = Ok id) pages ids →
       run.1 = Ok ids)
  ∧ (∀ answer pages,
       json res = Ok answer →
       getitem answer "results" = Ok (VList pages) →
       Exists (λ page, is_raise (getitem page "id") = true) pages →
       is_raise run.1 = true)
  ∧ ((∀ answer,
        json res = Ok answer → is_raise (getitem answer "results") = true) →
     is_raise run.1 = true).
Proof.
  intros req res run. subst run.
  unfold get_current_pages_id, bind, query_notion, lift. fold req. fold res.
  cbn [fst snd]. split; [|split; [|split; [|split]]].
  - destruct (json res) as [answer|]; [|done].
    destruct (getitem answer "results") as [results|]; [|done].
    by destruct (iter results).
  - intros request' Htext. fold req.
    set (res' := (request' req (world st)).1) in *.
    assert (json res' = json res) as -> by (unfold json; by rewrite Htext).
    destruct (json res) as [answer|]; [|done].
    destruct (getitem answer "results") as [results|]; [|done].
    by destruct (iter results).
  - intros answer pages ids -> -> Hids. cbn [iter fst].
    by rewrite (append_pages_id_all pages ids []).
  - intros answer pages -> -> Hbad. cbn [iter fst].
    by apply append_pages_id_raises.
  - intros Hnone. destruct (json res) as [answer|]; [|done].
    specialize (Hnone answer eq_refl).
    by destruct (getitem answer "results").
Qed.


(** ** The writer against the page store *)

Lemma archive_archived (p : Page) : archived p = true → archive p = p.
Proof. destruct p; simpl; by intros ->. Qed.

Lemma bearer_inj (key1 key2 : string) :
  "Bearer " +:+ key1 = "Bearer " +:+ key2 → key1 = key2.
Proof. cbv [String.append]. congruence. Qed.

Lemma key_accepted (endpoint method : string) (data : option body)
    (key : string) (s : Store) :
  ("Authorization", "Bearer " +:+ credential s)
    ∈ headers (notion_request endpoint method data key)
  ↔ key = credential s.
Proof.
  cbn [headers notion_request]. rewrite !elem_of_cons, elem_of_nil. split.
  - intros [H|[H|[H|[]]]]; try discriminate H.
    apply (f_equal snd), bearer_inj in H. done.
  - intros ->. by left.
Qed.

(** Follows a request of the writer through the branches of [serve]: the
    header check becomes a comparison of keys, and each test on the method
    and the url is decided or split into its two cases. *)
Ltac route :=
  unfold serve;
  repeat match goal with
         | |- context [bool_decide (_ ∈ headers _)] =>
             rewrite (bool_decide_ext _ _ (key_accepted _ _ _ _ _))
         | |- context [bool_decide ?P] =>
             destruct (bool_decide_reflect P);
             cbn [negb method url data notion_request] in *
         | H : _ = _ ∧ _ |- _ => destruct H
         | H : String _ _ = String _ _ |- _ => discriminate H
         | H : ¬ (_ ∧ _) |- _ => solve [exfalso; apply H; split; reflexivity]
         | H : _ ≠ _ |- _ => solve [exfalso; apply H; reflexivity]
         end.

(** Closes a branch in which an error response is supposed to be [ok]. *)
Ltac refused :=
  let Hok := fresh "Hok" in
  intros Hok; first [reflexivity | cbn [fst ok refusal] in Hok; discriminate Hok].

Lemma drop_after_tail {A} (n : nat) (l : list A) :
  drop n (tail l) = drop (S n) l.
Proof. destruct l; [by destruct n|done]. Qed.

Lemma next_no_faults (s : Store) : faults s = [] → next s = s.
Proof. destruct s; unfold next, set_faults; simpl; by intros ->. Qed.

Lemma handle_cases (req : Request) (s : Store) :
  handle req s = serve req (next s)
  ∨ handle req s = (refusal "Service unavailable.", next s).
Proof. unfold handle. destruct (faults s) as [|[] ?]; auto. Qed.

Lemma handle_ok (req : Request) (s : Store) :
  ok (handle req s).1 = true → handle req s = serve req (next s).
Proof. destruct (handle_cases req s) as [->| ->]; [done|refused]. Qed.

Lemma handle_no_faults (req : Request) (s : Store) :
  faults s = [] → handle req s = serve req s.
Proof. intros Hf. unfold handle. by rewrite Hf, next_no_faults. Qed.

Lemma serve_list_request_cases (self : NotionWriter) (s : Store) :
  serve (list_request self) s = (store_query s, s)
  ∨ ∃ message, serve (list_request self) s = (refusal message, s).
Proof. unfold list_request. route; eauto. Qed.

Lemma serve_list_request (self : NotionWriter) (s : Store) :
  authorized self s → serve (list_request self) s = (store_query s, s).
Proof.
  intros [Hkey Hdb]. unfold list_request. rewrite Hdb. by route.
Qed.

Lemma archive_twice (p : Page) : archive (archive p) = archive p.
Proof. reflexivity. Qed.

Lemma archive_all_among (ids : list string) (ps : list Page) :
  archive_all ids ps
  = (λ p, if bool_decide (page_url (page_id p) ∈ page_url <$> ids)
          then archive p else p) <$> ps.
Proof.
  revert ps. induction ids as [|id ids IH]; intros ps.
  - cbn [archive_all foldl]. rewrite <- (list_fmap_id ps) at 1.
    apply list_fmap_ext. intros i p _. by rewrite bool_decide_eq_false_2
      by (rewrite fmap_nil; apply not_elem_of_nil).
  - change (archive_all (id :: ids) ps)
      with (archive_all ids (archive_at (page_url id) ps)).
    rewrite IH. unfold archive_at. rewrite <- list_fmap_compose.
    apply list_fmap_ext. intros i p _. cbn [compose]. rewrite fmap_cons.
    rewrite (bool_decide_ext _ _ (elem_of_cons _ _ _)).
    destruct (decide (page_url (page_id p) = page_url id)) as [Heq|Hne].
    + rewrite (bool_decide_eq_true_2 (_ ∨ _)) by by left.
      by case_bool_decide.
    + case_bool_decide as Hin.
      * by rewrite (bool_decide_eq_true_2 (_ ∨ _)) by by right.
      * by rewrite (bool_decide_eq_false_2 (_ ∨ _)) by by intros [|].
Qed.

Lemma archive_all_active (s : Store) :
  fits s →
  archive_all (page_id <$> take (page_size s) (active s)) (pages s)
  = archive <$> pages s.
Proof.
  intros Hfits. rewrite take_ge by done. rewrite archive_all_among.
  apply list_fmap_ext. intros i p Hp. case_bool_decide as Hin; [done|].
  destruct (archived p) eqn:Harch; [by rewrite archive_archived|].
  exfalso. apply Hin. rewrite <- list_fmap_compose.
  apply (list_elem_of_fmap_2 (page_url ∘ page_id)). unfold active.
  apply list_elem_of_filter. split; [done|]. by eapply list_elem_of_lookup_2.
Qed.

Lemma none_active_archived (ps : list Page) :
  filter (λ p, archived p = false) (archive <$> ps) = [].
Proof.
  induction ps as [|p ps IH]; [done|].
  rewrite fmap_cons, filter_cons_False; [done|]. cbn. discriminate.
Qed.

Lemma all_active_shown (day : date) (ps : list Page) (entities : list dict) :
  Forall2 (shows day) ps entities → filter (λ p, archived p = false) ps = ps.
Proof.
  induction 1 as [|p e ps es Hp _ IH]; [done|].
  rewrite filter_cons_True by apply Hp. by rewrite IH.
Qed.

Lemma found_after_archive (url url' : string) (ps : list Page) :
  Exists (λ p, page_url (page_id p) = url) ps →
  Exists (λ p, page_url (page_id p) = url) (archive_at url' ps).
Proof.
  unfold archive_at. rewrite Exists_fmap. intros Hfound.
  eapply Exists_impl; [exact Hfound|].
  intros p Hp. cbn [compose]. by case_decide.
Qed.



Lemma database_url_inj (db1 db2 : string) :
  "https://api.notion.com/v1" +:+ "/databases/" +:+ db1
  = api +:+ "/databases/" +:+ db2 → db1 = db2.
Proof. cbv [String.append api]. congruence. Qed.

Lemma serve_verification (key db : string) (s : Store) :
  ok (serve (notion_request ("/databases/" +:+ db) "GET" None key) s).1 = true
  ↔ key = credential s ∧ db = database s.
Proof.
  split.
  - route; cbn [fst ok refusal answer]; try discriminate.
    match goal with H : _ +:+ _ = _ |- _ => apply database_url_inj in H end.
    done.
  - intros [-> ->]. by route.
Qed.

(** Against the page store, a writer is built exactly when the request is
    not a failing one, the key is the store's credential and the database is
    the one the store holds. *)
Lemma init_against_store (key db : string) (st : state Store) :
  is_raise (__init__ handle key db st).1 = false
  ↔ head (faults (world st)) ≠ Some true
    ∧ key = credential (world st) ∧ db = database (world st).
Proof.
  unfold __init__, bind, query_notion, lift, raise. cbn [fst snd].
  set (req := notion_request ("/databases/" +:+ db) "GET" None key).
  assert (Hok : ok (handle req (world st)).1 = true
                ↔ head (faults (world st)) ≠ Some true
                  ∧ key = credential (world st) ∧ db = database (world st)).
  { unfold handle. subst req.
    destruct (faults (world st)) as [|[] later]; cbn [head].
    - rewrite serve_verification. cbn [credential database next set_faults].
      intuition congruence.
    - cbn [fst ok refusal]. intuition congruence.
    - rewrite serve_verification. cbn [credential database next set_faults].
      intuition congruence. }
  rewrite <- Hok. destruct (ok (handle req (world st)).1); cbn [negb].
  - done.
  - destruct (json (handle req (world st)).1) as [answer|]; cbn [fst];
      [destruct (getitem answer "message")|]; done.
Qed.

Lemma error_message_raises (res : Response) (e : exn) :
  error_message res = Raise e →
  e ∈ [KeyError "message"; TypeError; JSONDecodeError].
Proof.
  unfold error_message, json, getitem.
  destruct (text res) as [answer|]; [|intros [= <-]; set_solver].
  destruct answer as [| | | | |d]; try (intros [= <-]; set_solver).
  destruct (dict_get d "message"); [done|]. intros [= <-]. set_solver.
Qed.

(** C3, amended. Building a writer sends exactly one request, the existence
    check of the database.  It raises, leaving no instance and sending
    nothing more, exactly when the response to that check is not [ok],
    whatever the reason: it raises [Exception] with the message of the error
    body, or the [KeyError], [TypeError] or [JSONDecodeError] of reading a
    body that has none.  Otherwise it yields the instance holding the key and
    the database id.  Against the page store the check is turned down
    exactly when the request is a failing one, the key is not the store's
    credential or the database is not the one the store holds. *)
Theorem init_checks_database_once {World : Type}
    (request : Request → World → Response * World)
    (key db : string) (st : state World) (store_st : state Store) :
  let req := notion_request ("/databases/" +:+ db) "GET" None key in
  let res := (request req (world st)).1 in
  let run := __init__ request key db st in
  exchanges run.2 = exchanges st ++ [(req, res)]
  ∧ world run.2 = (request req (world st)).2
  ∧ (is_raise run.1 = true ↔ ok res = false)
  ∧ (ok res = true →
       run.1 = Ok {| notion_api_key := key; db_id := db |})
  ∧ (ok res = false →
       match error_message res with
       | Ok message => run.1 = Raise (Exception message)
       | Raise e =>
           run.1 = Raise e
           ∧ e ∈ [KeyError "message"; TypeError; JSONDecodeError]
       end)
  ∧ (is_raise (__init__ handle key db store_st).1 = true
     ↔ head (faults (world store_st)) = Some true
       ∨ key ≠ credential (world store_st)
       ∨ db ≠ database (world store_st)).
Proof.
  intros req res run. subst run.
  split; [|split; [|split; [|split; [|split]]]].
  6: { pose proof (init_against_store key db store_st) as Hbuilt.
       destruct (is_raise (__init__ handle key db store_st).1).
       - split; [intros _|done].
         destruct (decide (head (faults (world store_st)) = Some true))
           as [|n]; [by left|].
         destruct (decide (key = credential (world store_st))) as [e|];
           [|by right; left].
         destruct (decide (db = database (world store_st))) as [e0|];
           [|by right; right].
         by pose proof (proj2 Hbuilt (conj n (conj e e0))).
       - split; [done|]. destruct (proj1 Hbuilt eq_refl) as (? & ? & ?).
         by intros [|[|]]. }
  all: unfold __init__, bind, query_notion, lift, raise, error_message;
    fold req; fold res; cbn [fst snd].
  all: destruct (ok res) eqn:Hok; cbn [negb]; try done.
  all: destruct (json res) as [answer|e] eqn:Hjson; cbn [fst snd];
    try (destruct (getitem answer "message") as [message|e] eqn:Hmsg);
    cbn [fst snd]; try done.
  - intros _. split; [done|].
    apply (error_message_raises res). unfold error_message.
    by rewrite Hjson.
  - intros _. split; [done|].
    apply (error_message_raises res). unfold error_message.
    by rewrite Hjson.
Qed.

Section Sync.

Variable str : value → string.
Hypothesis str_id : ∀ s, str (VStr s) = s.

Lemma serve_archive_request (self : NotionWriter) (id : string) (s : Store) :
  serve (archive_request str self (VStr id)) s
  = (if bool_decide (notion_api_key self = credential s)
     then store_archive (page_url id) s
     else (refusal "API token is invalid.", s)).
Proof.
  unfold archive_request. rewrite str_id. by route.
Qed.

Lemma serve_archive_request_ok (self : NotionWriter) (id : string) (s : Store) :
  ok (serve (archive_request str self (VStr id)) s).1 = true →
  serve (archive_request str self (VStr id)) s
  = (answer (VDict [("object", VStr "page"); ("archived", VBool true)]),
     set_pages (archive_at (page_url id) (pages s)) s).
Proof.
  rewrite serve_archive_request. case_bool_decide; [|refused].
  unfold store_archive. case_bool_decide; [done|refused].
Qed.

Lemma serve_archive_request_found (self : NotionWriter) (id : string)
    (s : Store) :
  authorized self s →
  Exists (λ p, page_url (page_id p) = page_url id) (pages s) →
  serve (archive_request str self (VStr id)) s
  = (answer (VDict [("object", VStr "page"); ("archived", VBool true)]),
     set_pages (archive_at (page_url id) (pages s)) s).
Proof.
  intros [Hkey _] Hfound. rewrite serve_archive_request.
  rewrite bool_decide_eq_true_2 by done.
  unfold store_archive. by rewrite bool_decide_eq_true_2.
Qed.

Lemma serve_create_request (self : NotionWriter) (page_object : dict)
    (s : Store) :
  serve (create_request self page_object) s
  = (if bool_decide (notion_api_key self = credential s)
     then store_create (VDict page_object) s
     else (refusal "API token is invalid.", s)).
Proof. unfold create_request. by route. Qed.

Lemma getitem_results (results : value) :
  getitem (VDict [("object", VStr "list"); ("results", results)]) "results"
  = Ok results.
Proof. reflexivity. Qed.

Lemma getitem_id (p : Page) : getitem (page_json p) "id" = Ok (VStr (page_id p)).
Proof. reflexivity. Qed.

Lemma append_pages_id_store (ps : list Page) :
  append_pages_id (page_json <$> ps) [] = Ok ((λ p, VStr (page_id p)) <$> ps).
Proof.
  rewrite (append_pages_id_all _ ((λ p, VStr (page_id p)) <$> ps)); [done|].
  induction ps; constructor; auto using getitem_id.
Qed.

Lemma get_current_pages_id_store (self : NotionWriter) (st st' : state Store)
    (ids : list value) :
  get_current_pages_id handle self st = (Ok ids, st') →
  ids = (λ p, VStr (page_id p))
          <$> take (page_size (world st)) (active (world st))
  ∧ world st' = next (world st)
  ∧ exchanges st'
    = exchanges st ++ [(list_request self, store_query (next (world st)))].
Proof.
  unfold get_current_pages_id, bind, query_notion, lift.
  fold (list_request self).
  destruct (handle_cases (list_request self) (world st)) as [->| ->];
    [destruct (serve_list_request_cases self (next (world st)))
       as [->|[message ->]]|].
  - cbn [fst snd json text store_query answer]. rewrite getitem_results.
    cbn [iter]. rewrite append_pages_id_store. by intros [= <- <-].
  - done.
  - done.
Qed.

Lemma get_current_pages_id_accepted (self : NotionWriter) (st : state Store) :
  authorized self (world st) → faults (world st) = [] →
  get_current_pages_id handle self st
  = (Ok ((λ p, VStr (page_id p))
           <$> take (page_size (world st)) (active (world st))),
     {| world := world st;
        exchanges := exchanges st
                     ++ [(list_request self, store_query (world st))] |}).
Proof.
  intros Hauth Hf.
  unfold get_current_pages_id, bind, query_notion, lift.
  fold (list_request self).
  rewrite handle_no_faults, serve_list_request by done.
  cbn [fst snd json text store_query answer]. rewrite getitem_results.
  cbn [iter]. by rewrite append_pages_id_store.
Qed.

Lemma delete_pages_store (self : NotionWriter) (ids : list string)
    (st st' : state Store) :
  delete_pages handle str self (VStr <$> ids) st = (Ok true, st') →
  world st'
  = set_pages (archive_all ids (pages (world st)))
      (set_faults (drop (length ids) (faults (world st))) (world st)).
Proof.
  revert st. induction ids as [|id ids IH]; intros st.
  - intros [= <-]. by destruct (world st).
  - rewrite fmap_cons. cbn [delete_pages]. unfold bind, query_notion.
    fold (archive_request str self (VStr id)).
    set (out := handle (archive_request str self (VStr id)) (world st)).
    cbn [fst snd]. destruct (ok out.1) eqn:Hok; cbn [negb]; [|done].
    intros Hrest%IH. rewrite Hrest. cbn [world]. subst out.
    rewrite (handle_ok _ _ Hok). rewrite (handle_ok _ _ Hok) in Hok.
    rewrite (serve_archive_request_ok _ _ _ Hok). cbn [snd].
    unfold set_pages, set_faults, next. cbn. by rewrite drop_after_tail.
Qed.

Lemma delete_pages_accepted (self : NotionWriter) (ids : list string)
    (st : state Store) :
  authorized self (world st) → faults (world st) = [] →
  Forall (λ id, Exists (λ p, page_url (page_id p) = page_url id)
                  (pages (world st))) ids →
  delete_pages handle str self (VStr <$> ids) st
  = (Ok true,
     {| world := set_pages (archive_all ids (pages (world st))) (world st);
        exchanges :=
          exchanges st
          ++ ((λ id, (archive_request str self (VStr id),
                      answer (VDict [("object", VStr "page");
                                     ("archived", VBool true)]))) <$> ids) |}).
Proof.
  revert st. induction ids as [|id ids IH]; intros st Hauth Hf Hfound.
  - cbn. rewrite app_nil_r. destruct st as [[] ?]. reflexivity.
  - apply Forall_cons in Hfound as [Hid Hids].
    rewrite fmap_cons. cbn [delete_pages]. unfold bind, query_notion.
    fold (archive_request str self (VStr id)).
    rewrite handle_no_faults, serve_archive_request_found by done.
    cbn [fst snd ok answer negb]. rewrite IH.
    + cbn [world exchanges]. by rewrite <- app_assoc.
    + exact Hauth.
    + exact Hf.
    + eapply Forall_impl; [exact Hids|]. intros id'. cbn [world pages set_pages].
      apply found_after_archive.
Qed.

Lemma read_page_built (self : NotionWriter) (s : Store) (name number : value)
    (day : date) (p : Page) :
  read_page s
    (VDict ([("icon", VDict [("emoji", VStr (get_player_emoji number))]);
             ("properties", VDict [
                ("Player's name", VDict [
                   ("title", VList [
                      VDict [("type", VStr "text");
                             ("text", VDict [("content", name)])]])]);
                ("Rank", VDict [("number", number)]);
                ("Date", VDict [
                   ("date", VDict [
                      ("start", VStr (date_str day));
                      ("end", VNone);
                      ("time_zone", VNone)])])])]
            ++ [("parent", VDict [("database_id", VStr (db_id self))])]))
  = Some p →
  name = VStr (title p) ∧ number = VInt (rank p)
  ∧ icon p = get_player_emoji number ∧ created_date p = date_str day
  ∧ archived p = false.
Proof.
  unfold read_page. cbn [app].
  match goal with |- context [lookup_path ["parent"; "database_id"] ?page] =>
    change (lookup_path ["parent"; "database_id"] page)
      with (Some (VStr (db_id self)));
    change (lookup_path ["icon"; "emoji"] page)
      with (Some (VStr (get_player_emoji number)));
    change (lookup_path ["properties"; "Player's name"; "title"] page)
      with (Some (VList [VDict [("type", VStr "text");
                                ("text", VDict [("content", name)])]]));
    change (lookup_path ["properties"; "Rank"; "number"] page)
      with (Some number);
    change (lookup_path ["properties"; "Date"; "date"; "start"] page)
      with (Some (VStr (date_str day)))
  end.
  destruct number; try discriminate.
  match goal with |- context [lookup_path ["text"; "content"] ?item] =>
    change (lookup_path ["text"; "content"] item) with (Some name)
  end.
  destruct name; try discriminate. case_decide; [|discriminate].
  by intros [= <-].
Qed.

Lemma insert_pages_store (self : NotionWriter) (players_ranking : list dict)
    (st st' : state Store) :
  insert_pages handle read_clock self players_ranking st = (Ok true, st') →
  ∃ fresh : list Page,
    pages (world st') = pages (world st) ++ fresh
    ∧ Forall2 (shows (clock (world st))) fresh players_ranking.
Proof.
  revert st. induction players_ranking as [|page_info rest IH]; intros st.
  - intros [= <-]. exists []. by rewrite app_nil_r.
  - cbn [insert_pages]. unfold bind at 1.
    destruct (dict_get page_info "name") as [name|] eqn:Hname;
      [destruct (dict_get page_info "rank") as [number|] eqn:Hrank|].
    + rewrite (build_page_object_run _ _ _ name number true st Hname Hrank).
      cbn [read_clock fst snd world exchanges].
      unfold bind, query_notion. cbn [world exchanges].
      match goal with |- context [notion_request "/pages" "POST"
                                    (Some (json_dumps (VDict ?page))) _] =>
        fold (create_request self page); set (page_object := page) in *
      end.
      set (out := handle (create_request self page_object) (world st)).
      cbn [fst snd]. destruct (ok out.1) eqn:Hok; cbn [negb]; [|done].
      subst out. rewrite (handle_ok _ _ Hok) in Hok |- *.
      rewrite serve_create_request in Hok |- *.
      destruct (bool_decide (notion_api_key self = credential _));
        [|discriminate Hok].
      unfold store_create in Hok |- *.
      destruct (read_page (next (world st)) (VDict page_object)) as [p|]
        eqn:Hread; [|discriminate Hok].
      apply read_page_built in Hread as (-> & -> & Hicon & Hdate & Harch).
      intros (fresh & Hpages & Hshows)%IH. exists (p :: fresh).
      cbn in Hpages, Hshows. split.
      * by rewrite Hpages, <- app_assoc.
      * constructor; [|done]. by repeat split.
    + unfold build_page_object, bind, lift, getitem. by rewrite Hrank.
    + unfold build_page_object, bind, lift, getitem.
      destruct (dict_get page_info "rank"); [by rewrite Hname|done].
Qed.

(** C1, amended. When [update_db] returns [True] and the query that listed
    the pages returned every active one (they fit in one page of results),
    the store afterwards holds, in active view, exactly one page per entity
    of the input, in the order of the input, and no page it held before
    remains in active view: each is archived. *)
Theorem update_db_replaces_pages (self : NotionWriter)
    (players_ranking : list dict) (st st' : state Store) :
  fits (world st) →
  update_db handle read_clock str self players_ranking st = (Ok true, st') →
  ∃ fresh : list Page,
    pages (world st') = (archive <$> pages (world st)) ++ fresh
    ∧ active (world st') = fresh
    ∧ Forall2 (shows (clock (world st))) fresh players_ranking.
Proof.
  intros Hfits. unfold update_db, bind.
  destruct (get_current_pages_id handle self st) as [[ids|] st1] eqn:Hlist;
    [|done].
  apply get_current_pages_id_store in Hlist as (-> & Hw1 & _).
  rewrite (list_fmap_compose page_id VStr).
  destruct (delete_pages handle str self _ st1) as [[[]|] st2] eqn:Hdel;
    cbn [negb]; [|done|done].
  apply delete_pages_store in Hdel.
  intros (fresh & Hpages & Hshows)%insert_pages_store.
  rewrite Hdel, Hw1 in Hpages, Hshows. cbn in Hpages, Hshows.
  change (active (next (world st))) with (active (world st)) in *.
  rewrite archive_all_active in Hpages by done.
  exists fresh. split; [done|]. split; [|done].
  unfold active. rewrite Hpages, filter_app, none_active_archived.
  by rewrite (all_active_shown _ _ _ Hshows).
Qed.

Lemma update_db_empty_run (self : NotionWriter) (st : state Store) :
  authorized self (world st) → faults (world st) = [] → fits (world st) →
  update_db handle read_clock str self [] st
  = (Ok true,
     {| world := set_pages (archive <$> pages (world st)) (world st);
        exchanges :=
          exchanges st
          ++ (list_request self, store_query (world st))
             :: ((λ p, (archive_request str self (VStr (page_id p)),
                        answer (VDict [("object", VStr "page");
                                       ("archived", VBool true)])))
                   <$> active (world st)) |}).
Proof.
  intros Hauth Hf Hfits. unfold update_db, bind.
  rewrite get_current_pages_id_accepted by done.
  rewrite (list_fmap_compose page_id VStr).
  pose proof (archive_all_active _ Hfits) as Hall.
  rewrite take_ge in Hall |- * by done.
  rewrite delete_pages_accepted; cbn [world exchanges]; try done.
  - cbn [negb insert_pages ret]. rewrite Hall.
    by rewrite <- list_fmap_compose, <- app_assoc.
  - apply Forall_forall. intros id (p & -> & Hp)%list_elem_of_fmap.
    apply Exists_exists. exists p. split; [|done].
    unfold active in Hp. by apply list_elem_of_filter in Hp as [_ Hp].
Qed.

(** C4, amended. When the store takes the writer's key, fails no request and
    lists every active page in one query, [update_db] on the empty ranking
    archives every page of the store and inserts none, which leaves no
    active page, and returns [True]; run again, it only lists the pages,
    archives and inserts nothing, and returns [True] again. *)
Theorem update_db_empty_ranking (self : NotionWriter) (st : state Store) :
  authorized self (world st) → faults (world st) = [] → fits (world st) →
  let first := update_db handle read_clock str self [] st in
  let second := update_db handle read_clock str self [] first.2 in
  first.1 = Ok true
  ∧ pages (world first.2) = archive <$> pages (world st)
  ∧ active (world first.2) = []
  ∧ (exchanges first.2).*1
    = (exchanges st).*1
      ++ list_request self
         :: ((λ p, archive_request str self (VStr (page_id p)))
               <$> active (world st))
  ∧ second.1 = Ok true
  ∧ world second.2 = world first.2
  ∧ (exchanges second.2).*1 = (exchanges first.2).*1 ++ [list_request self].
Proof.
  intros Hauth Hf Hfits first second. subst second first.
  rewrite (update_db_empty_run self st) by done. cbn [fst snd].
  assert (Hnone : active (set_pages (archive <$> pages (world st)) (world st))
                  = []) by apply none_active_archived.
  rewrite update_db_empty_run; cbn [fst snd world exchanges]; try done.
  - rewrite Hnone. cbn [pages set_pages].
    split; [done|]. split; [done|]. split; [done|]. split.
    { rewrite fmap_app, fmap_cons, <- list_fmap_compose. done. }
    split; [done|]. split.
    + rewrite <- list_fmap_compose.
      rewrite (list_fmap_ext (archive ∘ archive) archive (pages (world st)))
        by done.
      by destruct (world st).
    + by rewrite !fmap_app.
  - unfold fits. rewrite Hnone. cbn. lia.
Qed.

End Sync.

(** ** The properties at work *)

(** The page objects of Alice, for insertion and not. *)
Lemma build_page_object_parent_witness :
  dict_get alice "name" = Some (VStr "Alice")
  ∧ dict_get alice "rank" = Some (VInt 1)
  ∧ (∃ page,
       (build_page_object read_clock a_writer alice true
          (start (a_store 100 []))).1 = Ok page
       ∧ dict_get page "parent" = Some (VDict [("database_id", VStr "db")])
       ∧ lookup_path ["parent"; "database_id"] (VDict page)
         = Some (VStr "db"))
  ∧ (∃ page,
       (build_page_object read_clock a_writer alice false
          (start (a_store 100 []))).1 = Ok page
       ∧ dict_get page "parent" = None
       ∧ "parent" ∉ dict_keys page).
Proof.
  split; [reflexivity|]. split; [reflexivity|].
  apply (build_page_object_parent read_clock a_writer alice
           (VStr "Alice") (VInt 1) (start (a_store 100 [])));
    reflexivity.
Defined.


(** Alice from France and Alice from nowhere get the same page object. *)
Lemma build_page_object_ignores_country_witness :
  dict_get alice "country" = Some (VStr "FRA")
  ∧ dict_get alice_stateless "country" = None
  ∧ dict_get alice "name" = dict_get alice_stateless "name"
  ∧ dict_get alice "rank" = dict_get alice_stateless "rank"
  ∧ build_page_object read_clock a_writer alice true (start (a_store 100 []))
    = build_page_object read_clock a_writer alice_stateless true
        (start (a_store 100 [])).
Proof.
  split; [reflexivity|]. split; [reflexivity|].
  split; [reflexivity|]. split; [reflexivity|].
  apply (build_page_object_ignores_country read_clock a_writer alice
           alice_stateless true (start (a_store 100 [])));
    reflexivity.
Defined.

(** A writer with the store's own key and database is not built when the
    check is a failing request; and a check turned down with no message in
    its body raises [KeyError], not [Exception]. *)
Lemma init_fails_with_valid_credential :
  authorized a_writer (a_store 100 [true])
  ∧ (__init__ handle "secret" "db" (start (a_store 100 [true]))).1
    = Raise (Exception (VStr "Service unavailable."))
  ∧ (__init__ playback "secret" "db" (start [refusal_without_message])).1
    = Raise (KeyError "message").
Proof. repeat split; by vm_compute. Qed.

(** Three ids against a transport that turns down the second request: two
    requests are sent, the third response is never asked for. *)
Example delete_pages_second_of_three :
  let run := delete_pages playback str_of_id a_writer
               [VStr "P1"; VStr "P2"; VStr "P3"]
               (start [answer VNone; refusal "Could not find page.";
                       answer VNone]) in
  run.1 = Ok false
  ∧ (λ x, (method x.1, url x.1, ok x.2)) <$> exchanges run.2
    = [("PATCH", "https://api.notion.com/v1/pages/P1", true);
       ("PATCH", "https://api.notion.com/v1/pages/P2", false)]
  ∧ world run.2 = [answer VNone].
Proof. repeat split; by vm_compute. Qed.

(** A result without an id: the body has a ["results"] field, and listing
    the pages raises. *)
Lemma get_current_pages_id_result_without_id :
  json listing_without_id
  = Ok (VDict [("object", VStr "list");
               ("results", VList [VDict [("object", VStr "page")]])])
  ∧ getitem (VDict [("object", VStr "list");
                    ("results", VList [VDict [("object", VStr "page")]])])
      "results"
    = Ok (VList [VDict [("object", VStr "page")]])
  ∧ (get_current_pages_id playback a_writer (start [listing_without_id])).1
    = Raise (KeyError "id").
Proof. repeat split. Qed.

(** Scenario 1: after the sync of Alice and Bob, P1 and P2 are archived and
    the active pages are those of Alice and Bob. *)
Lemma update_db_replaces_pages_witness :
  fits (a_store 100 [])
  ∧ update_db handle read_clock str_of_id a_writer [alice; bob]
      (start (a_store 100 []))
    = (Ok true, sync_run.2)
  ∧ ∃ fresh : list Page,
      pages (world sync_run.2)
      = (archive <$> [old_page "P1"; old_page "P2"]) ++ fresh
      ∧ active (world sync_run.2) = fresh
      ∧ Forall2 (shows a_day) fresh [alice; bob].
Proof.
  assert (Hfits : fits (a_store 100 [])) by (unfold fits; vm_compute; lia).
  assert (Hrun : update_db handle read_clock str_of_id a_writer [alice; bob]
                   (start (a_store 100 []))
                 = (Ok true, sync_run.2)) by (vm_compute; reflexivity).
  split; [exact Hfits|]. split; [exact Hrun|].
  exact (update_db_replaces_pages str_of_id (λ s, eq_refl) a_writer
           [alice; bob] (start (a_store 100 [])) sync_run.2 Hfits Hrun).
Defined.

(** Two pages in the store and one result per query: the sync of Alice
    returns [True] and leaves P2 in active view next to the new page. *)
Lemma update_db_leaves_stale_page :
  stale_run.1 = Ok true
  ∧ active (world stale_run.2)
    = [old_page "P2";
       {| page_id := "0"; title := "Alice"; rank := 1; icon := "🏅";
          created_date := "2024-03-07"; archived := false |}]
  ∧ ¬ Forall2 (shows a_day) (active (world stale_run.2)) [alice].
Proof.
  split; [by vm_compute|]. split; [by vm_compute|].
  intros Hshows%Forall2_length. vm_compute in Hshows. discriminate Hshows.
Qed.

(** The empty ranking over P1 and P2, twice. *)
Lemma update_db_empty_ranking_witness :
  authorized a_writer (a_store 100 [])
  ∧ faults (a_store 100 []) = []
  ∧ fits (a_store 100 [])
  ∧ let first := update_db handle read_clock str_of_id a_writer []
                   (start (a_store 100 [])) in
    let second := update_db handle read_clock str_of_id a_writer []
                    first.2 in
    first.1 = Ok true
    ∧ pages (world first.2) = archive <$> [old_page "P1"; old_page "P2"]
    ∧ active (world first.2) = []
    ∧ (exchanges first.2).*1
      = [] ++ list_request a_writer
           :: ((λ p, archive_request str_of_id a_writer (VStr (page_id p)))
                 <$> active (a_store 100 []))
    ∧ second.1 = Ok true
    ∧ world second.2 = world first.2
    ∧ (exchanges second.2).*1
      = (exchanges first.2).*1 ++ [list_request a_writer].
Proof.
  assert (Hauth : authorized a_writer (a_store 100 [])) by (by split).
  assert (Hfits : fits (a_store 100 [])) by (unfold fits; vm_compute; lia).
  split; [exact Hauth|]. split; [reflexivity|]. split; [exact Hfits|].
  exact (update_db_empty_ranking str_of_id (λ s, eq_refl) a_writer
           (start (a_store 100 [])) Hauth eq_refl Hfits).
Defined.

(** The empty ranking against a store that fails the first archive request:
    [False], and both pages stay.  Against a store that lists one result per
    query: [True], and P2 stays. *)
Lemma update_db_empty_ranking_leaves_pages :
  rejected_run.1 = Ok false
  ∧ active (world rejected_run.2) = [old_page "P1"; old_page "P2"]
  ∧ short_run.1 = Ok true
  ∧ active (world short_run.2) = [old_page "P2"].
Proof. repeat split; by vm_compute. Qed.

(** ** The scenarios of the spec *)

(** Scenario 1: P1 and P2 are archived, and the two new pages carry the gold
    and the silver medal. *)
Example sync_of_alice_and_bob :
  sync_run.1 = Ok true
  ∧ (λ p, (title p, rank p, icon p, archived p)) <$> pages (world sync_run.2)
    = [("Old", 9%Z, "👤", true); ("Old", 9%Z, "👤", true);
       ("Alice", 1%Z, "🏅", false); ("Bob", 2%Z, "🥈", false)]
  ∧ (λ x, method x.1) <$> exchanges sync_run.2
    = ["POST"; "PATCH"; "PATCH"; "POST"; "POST"].
Proof. repeat split; by vm_compute. Qed.

(** Scenario 2: the archive of the second of three ids fails; [update_db]
    returns [False], the third id is not asked for and nothing is created. *)
Example sync_stops_at_failed_archive :
  let run := update_db handle read_clock str_of_id a_writer [alice; bob]
               (start (a_store_of_three [false; false; true])) in
  run.1 = Ok false
  ∧ (λ x, (method x.1, url x.1, ok x.2)) <$> exchanges run.2
    = [("POST", "https://api.notion.com/v1/databases/db/query", true);
       ("PATCH", "https://api.notion.com/v1/pages/P1", true);
       ("PATCH", "https://api.notion.com/v1/pages/P2", false)]
  ∧ page_id <$> active (world run.2) = ["P2"; "P3"].
Proof. repeat split; by vm_compute. Qed.

(** Scenario 3: a writer for a database the store does not hold is not
    built, and one request was sent. *)
Example init_with_unknown_database :
  let run := __init__ handle "secret" "nowhere" (start (a_store 100 [])) in
  run.1 = Raise (Exception (VStr "Could not find what the request names."))
  ∧ (λ x, (method x.1, url x.1, ok x.2)) <$> exchanges run.2
    = [("GET", "https://api.notion.com/v1/databases/nowhere", false)].
Proof. repeat split; by vm_compute. Qed.

(** Known codes get their label; anything else comes back as it is, and the
    codes are case-sensitive. *)
Example get_player_country_examples :
  get_player_country "FRA" = "🇫🇷 France"
  ∧ get_player_country "RSA" = "🇿🇦 South Africa"
  ∧ get_player_country "fra" = "fra"
  ∧ get_player_country "Atlantis" = "Atlantis".
Proof. repeat split; by vm_compute. Qed.

(** ** More on the methods of the writer *)

Lemma emoji_distinct :
  "🏅" ≠ "🥈" ∧ "🏅" ≠ "🥉" ∧ "🏅" ≠ "👤" ∧ "🥈" ≠ "🥉"
  ∧ "🥈" ≠ "👤" ∧ "🥉" ≠ "👤".
Proof. repeat split; discriminate. Qed.

(** X8. Which objects get a medal, among those that are [None], a boolean,
    an integer, a string, a list or a dict (a float, which Python compares
    by value so that [1.0 == 1], is no [value] and is not covered):
    [get_player_emoji] gives the gold medal to the integer 1 and to [True]
    only, the silver medal to the integer 2 only, the bronze medal to the
    integer 3 only, and the bust to every other such object, strings such
    as ["1"] included. *)
Theorem get_player_emoji_medals (player_rank : value) :
  (get_player_emoji player_rank = "🏅"
     ↔ player_rank = VInt 1 ∨ player_rank = VBool true)
  ∧ (get_player_emoji player_rank = "🥈" ↔ player_rank = VInt 2)
  ∧ (get_player_emoji player_rank = "🥉" ↔ player_rank = VInt 3)
  ∧ (get_player_emoji player_rank = "👤"
       ↔ player_rank ≠ VInt 1 ∧ player_rank ≠ VBool true
         ∧ player_rank ≠ VInt 2 ∧ player_rank ≠ VInt 3).
Proof.
  destruct emoji_distinct as (H12 & H13 & H14 & H23 & H24 & H34).
  unfold get_player_emoji, eq_int.
  destruct player_rank as [|[]|n|s|l|d]; cbn [bool_decide].
  all: repeat case_bool_decide; subst; try lia; try discriminate;
    repeat split; intros; try done; try intuition congruence.
Qed.

Lemma countries_labels_distinct : NoDup countries_items.*2.
Proof. apply (bool_decide_unpack _). vm_compute. exact I. Qed.

Lemma countries_labels_are_no_codes :
  Forall (λ label, label ∉ countries_items.*1) countries_items.*2.
Proof. apply (bool_decide_unpack _). vm_compute. exact I. Qed.

Lemma countries_lookup (code label : string) :
  countries !! code = Some label ↔ (code, label) ∈ countries_items.
Proof.
  unfold countries. symmetry.
  apply (elem_of_list_to_map (M := gmap string)), countries_keys_distinct.
Qed.

(** X7. [get_player_country] can be applied twice without harm: no label of
    the table is itself a code, so a presented country is presented as it
    is.  Two codes of the table never share a label. *)
Theorem get_player_country_idempotent :
  (∀ player_country,
     get_player_country (get_player_country player_country)
     = get_player_country player_country)
  ∧ (∀ code1 code2,
       code1 ∈ countries_items.*1 → code2 ∈ countries_items.*1 →
       get_player_country code1 = get_player_country code2 →
       code1 = code2).
Proof.
  split.
  - intros c. unfold get_player_country at 2 3.
    destruct (countries !! c) as [label|] eqn:Hc.
    + apply countries_lookup in Hc.
      assert (Hout : label ∉ countries_items.*1).
      { eapply (proj1 (Forall_forall _ _) countries_labels_are_no_codes).
        apply list_elem_of_fmap. by exists (c, label). }
      unfold get_player_country, countries.
      apply (not_elem_of_list_to_map_1 (M := gmap string)) in Hout.
      by rewrite Hout.
    + unfold get_player_country. by rewrite Hc.
  - intros code1 code2 [[c1 l1] [-> H1]]%list_elem_of_fmap
      [[c2 l2] [-> H2]]%list_elem_of_fmap. cbn [fst].
    unfold get_player_country.
    rewrite (proj2 (countries_lookup c1 l1) H1).
    rewrite (proj2 (countries_lookup c2 l2) H2). intros <-.
    apply list_elem_of_lookup in H1 as [i Hi], H2 as [j Hj].
    assert (i = j) as ->.
    { eapply (NoDup_lookup _ _ _ l1 countries_labels_distinct);
        rewrite list_lookup_fmap; [by rewrite Hi|by rewrite Hj]. }
    congruence.
Qed.

Lemma countries_codes_shaped :
  Forall (λ code, is_code_shaped code = true) countries_items.*1.
Proof. apply (bool_decide_unpack _). vm_compute. exact I. Qed.

(** X13. Only three capital letters can be a known country: every string of
    another shape, a code in small letters for one, comes back from
    [get_player_country] unchanged. *)
Theorem get_player_country_other_shapes (player_country : string) :
  is_code_shaped player_country = false →
  get_player_country player_country = player_country.
Proof.
  intros Hshape. unfold get_player_country.
  destruct (countries !! player_country) as [label|] eqn:Hc; [|done].
  apply countries_lookup in Hc.
  assert (Hin : player_country ∈ countries_items.*1).
  { apply list_elem_of_fmap. by exists (player_country, label). }
  apply (proj1 (Forall_forall _ _) countries_codes_shaped) in Hin.
  congruence.
Qed.

(** France in small letters. *)
Lemma get_player_country_other_shapes_witness :
  is_code_shaped "fra" = false ∧ get_player_country "fra" = "fra".
Proof.
  split; [reflexivity|].
  apply (get_player_country_other_shapes "fra"). reflexivity.
Defined.

Section WriterMore.

Context {World : Type}.
Variable request : Request → World → Response * World.
Variable today : World → date * World.
Variable str : value → string.

Lemma notion_request_signed (endpoint method : string) (data : option body)
    (key : string) :
  signed key (notion_request endpoint method data key).
Proof. split; [done|]. by exists endpoint. Qed.

Lemma delete_pages_signed (self : NotionWriter) (pages_id : list value)
    (st : state World) :
  ∃ sent,
    exchanges (delete_pages request str self pages_id st).2
    = exchanges st ++ sent
    ∧ Forall (λ x, signed (notion_api_key self) x.1) sent.
Proof.
  revert st. induction pages_id as [|page_id rest IH]; intros st.
  - exists []. by rewrite app_nil_r.
  - cbn [delete_pages]. unfold bind, query_notion. cbn [fst snd].
    match goal with |- context [ok ?res] => destruct (ok res) end; cbn [negb].
    + match goal with |- context [delete_pages _ _ _ _ ?st1] =>
        destruct (IH st1) as (sent & -> & Hsent)
      end.
      eexists (_ :: sent). cbn [exchanges]. rewrite <- app_assoc.
      split; [done|]. constructor; [apply notion_request_signed|done].
    + eexists [_]. split; [done|].
      constructor; [apply notion_request_signed|done].
Qed.

(** X2. Every request the writer sends is made out by [query_notion] with
    the writer's own key: building a writer, listing the pages and deleting
    pages only add requests addressed under the root of the Notion API,
    with the bearer header of that key, the API version and the JSON
    content type. *)
Theorem writer_requests_are_signed (self : NotionWriter)
    (pages_id : list value) (st : state World) :
  (∃ sent,
     exchanges (__init__ request (notion_api_key self) (db_id self) st).2
     = exchanges st ++ sent
     ∧ Forall (λ x, signed (notion_api_key self) x.1) sent)
  ∧ (∃ sent,
       exchanges (get_current_pages_id request self st).2
       = exchanges st ++ sent
       ∧ Forall (λ x, signed (notion_api_key self) x.1) sent)
  ∧ (∃ sent,
       exchanges (delete_pages request str self pages_id st).2
       = exchanges st ++ sent
       ∧ Forall (λ x, signed (notion_api_key self) x.1) sent).
Proof.
  split; [|split; [|apply delete_pages_signed]].
  - unfold __init__, bind, query_notion, lift, raise. cbn [fst snd].
    eexists [_]. split.
    + match goal with |- context [ok ?res] => destruct (ok res) end;
        cbn [negb]; [done|].
      match goal with |- context [json ?res] =>
        destruct (json res) as [answer|]; [|done]
      end.
      by destruct (getitem answer "message").
    + constructor; [apply notion_request_signed|done].
  - unfold get_current_pages_id, bind, query_notion, lift. cbn [fst snd].
    eexists [_]. split.
    + match goal with |- context [json ?res] =>
        destruct (json res) as [answer|]; [|done]
      end.
      destruct (getitem answer "results") as [results|]; [|done].
      by destruct (iter results).
    + constructor; [apply notion_request_signed|done].
Qed.

(** X3. Deleting a list of pages in two parts: [delete_pages] on [ids1 ++
    ids2] is [delete_pages] on [ids1] and, only if that returned [True],
    [delete_pages] on [ids2] from where the first left off. *)
Theorem delete_pages_app (self : NotionWriter) (ids1 ids2 : list value)
    (st : state World) :
  delete_pages request str self (ids1 ++ ids2) st
  = match delete_pages request str self ids1 st with
    | (Ok true, st1) => delete_pages request str self ids2 st1
    | stopped => stopped
    end.
Proof.
  revert st. induction ids1 as [|page_id rest IH]; intros st; [done|].
  cbn [app delete_pages]. unfold bind, query_notion. cbn [fst snd].
  match goal with |- context [ok ?res] => destruct (ok res) end; cbn [negb].
  - apply IH.
  - done.
Qed.

(** X11. [delete_pages] never uses the database id: a page is archived by
    its id alone, whichever database the writer was built for. *)
Theorem delete_pages_ignores_database (self : NotionWriter) (db_id' : string)
    (pages_id : list value) (st : state World) :
  delete_pages request str
    {| notion_api_key := notion_api_key self; db_id := db_id' |} pages_id st
  = delete_pages request str self pages_id st.
Proof.
  revert st. induction pages_id as [|page_id rest IH]; intros st; [done|].
  cbn [delete_pages notion_api_key]. unfold bind. cbn [fst snd].
  destruct (query_notion request _ _ _ _ st) as [[response|e] st1]; [|done].
  destruct (ok response); cbn [negb]; [apply IH|done].
Qed.

Lemma append_pages_id_first_failure (before after pages_id : list value)
    (page : value) (e : exn) :
  Forall (λ p, is_raise (getitem p "id") = false) before →
  getitem page "id" = Raise e →
  append_pages_id (before ++ page :: after) pages_id = Raise e.
Proof.
  intros Hbefore Hpage. revert pages_id.
  induction Hbefore as [|p before Hp _ IH]; intros pages_id; cbn.
  - by rewrite Hpage.
  - destruct (getitem p "id"); [apply IH|done].
Qed.

(** X4. Which exception [get_current_pages_id] raises: [JSONDecodeError]
    when the body of the response is not JSON; [KeyError] for ["results"]
    when the body is an object without that key, which is what an error
    response is; [TypeError] when the body is JSON and no object; and, when
    the results are a list, the exception of the first result that has no
    ["id"] to give ([KeyError] for ["id"] if it is an object, [TypeError]
    if not). *)
Theorem get_current_pages_id_exceptions (self : NotionWriter)
    (st : state World) :
  let res := (request (list_request self) (world st)).1 in
  let run := get_current_pages_id request self st in
  (∀ s, text res = PlainText s → run.1 = Raise JSONDecodeError)
  ∧ (∀ d, text res = JsonText (VDict d) → dict_get d "results" = None →
       run.1 = Raise (KeyError "results"))
  ∧ (∀ answer, text res = JsonText answer → (∀ d, answer ≠ VDict d) →
       run.1 = Raise TypeError)
  ∧ (∀ answer before page after,
       json res = Ok answer →
       getitem answer "results" = Ok (VList (before ++ page :: after)) →
       Forall (λ p, is_raise (getitem p "id") = false) before →
       (∀ d, page = VDict d → dict_get d "id" = None →
          run.1 = Raise (KeyError "id"))
       ∧ ((∀ d, page ≠ VDict d) → run.1 = Raise TypeError)).
Proof.
  intros res run. subst run.
  unfold get_current_pages_id, bind, query_notion, lift.
  fold (list_request self). fold res. cbn [fst snd]. unfold json.
  split; [|split; [|split]].
  - by intros s ->.
  - intros d -> Hd. cbn [getitem]. by rewrite Hd.
  - intros answer -> Hno. destruct answer; try done. by destruct (Hno items).
  - intros answer before page after Hjson Hresults Hbefore.
    rewrite Hjson, Hresults. cbn [iter fst]. split.
    + intros d -> Hd.
      apply append_pages_id_first_failure; [done|].
      cbn [getitem]. by rewrite Hd.
    + intros Hno. apply append_pages_id_first_failure; [done|].
      destruct page; try done. by destruct (Hno items).
Qed.

(** X5. Results that are no list: [get_current_pages_id] takes an empty
    object or an empty string for no results and returns the empty list; it
    raises [TypeError] on results that are null, a boolean or a number, and
    on an object or a string that is not empty, whose keys or characters
    are strings and have no ["id"]. *)
Theorem get_current_pages_id_results_not_a_list (self : NotionWriter)
    (st : state World) (answer results : value) :
  let res := (request (list_request self) (world st)).1 in
  let run := get_current_pages_id request self st in
  match results with
  | VList _ => True
  | VDict [] | VStr EmptyString =>
      json res = Ok answer ∧ getitem answer "results" = Ok results →
      run.1 = Ok []
  | _ =>
      json res = Ok answer ∧ getitem answer "results" = Ok results →
      run.1 = Raise TypeError
  end.
Proof.
  intros res run. subst run.
  unfold get_current_pages_id, bind, query_notion, lift.
  fold (list_request self). fold res. cbn [fst snd].
  destruct results as [| | | [|c s] | |[|[k v] d]]; try done;
    by intros [-> ->].
Qed.

(** X6. Which exception [__init__] raises when the check is turned down and
    the body carries no message to raise: [JSONDecodeError] when the body is
    not JSON, [KeyError] for ["message"] when it is an object without that
    key, [TypeError] when it is JSON and no object. *)
Theorem init_exceptions (notion_api_key db_id : string) (st : state World) :
  let req := notion_request ("/databases/" +:+ db_id) "GET" None
               notion_api_key in
  let res := (request req (world st)).1 in
  let run := __init__ request notion_api_key db_id st in
  (∀ s, ok res = false ∧ text res = PlainText s →
     run.1 = Raise JSONDecodeError)
  ∧ (∀ d, ok res = false ∧ text res = JsonText (VDict d)
          ∧ dict_get d "message" = None →
       run.1 = Raise (KeyError "message"))
  ∧ (∀ answer, ok res = false ∧ text res = JsonText answer
               ∧ (∀ d, answer ≠ VDict d) →
       run.1 = Raise TypeError).
Proof.
  intros req res run. subst run.
  unfold __init__, bind, query_notion, lift, raise. fold req. fold res.
  cbn [fst snd]. unfold json. split; [|split].
  - by intros s [-> ->].
  - intros d (-> & -> & Hd). cbn [negb getitem]. by rewrite Hd.
  - intros answer (-> & -> & Hno). cbn [negb].
    destruct answer; try done. by destruct (Hno items).
Qed.

(** X9. [build_page_object] never talks to the store: whatever the entity,
    no request is added, and the world is left as it was or, when a page
    object is built, as one reading of the clock leaves it. *)
Theorem build_page_object_sends_nothing (self : NotionWriter)
    (page_info : dict) (to_post : bool) (st : state World) :
  let run := build_page_object today self page_info to_post st in
  exchanges run.2 = exchanges st
  ∧ match run.1 with
    | Ok _ => world run.2 = (today (world st)).2
    | Raise _ => world run.2 = world st
    end.
Proof.
  unfold build_page_object, bind, lift, ret, getitem.
  destruct (dict_get page_info "rank"); [|done].
  by destruct (dict_get page_info "name").
Qed.

(** X10. What [to_post] changes: from the same state, the page object built
    for insertion is the one built otherwise with ["parent"] added after its
    other keys, the state left is the same, and an entity that makes one
    call raise makes the other raise the same exception. *)
Theorem build_page_object_to_post (self : NotionWriter) (page_info : dict)
    (st : state World) :
  let plain := build_page_object today self page_info false st in
  let posted := build_page_object today self page_info true st in
  posted.2 = plain.2
  ∧ match plain.1 with
    | Ok page =>
        posted.1
        = Ok (page ++ [("parent",
                        VDict [("database_id", VStr (db_id self))])])
    | Raise e => posted.1 = Raise e
    end.
Proof.
  unfold build_page_object, bind, lift, ret, getitem.
  destruct (dict_get page_info "rank"); [|done].
  by destruct (dict_get page_info "name").
Qed.

(** X12. A writer lists the database it was built for: when [__init__]
    yields a writer, the listing that writer then sends is the query of the
    database id that was checked, under the key that was checked. *)
Theorem init_then_list (key db : string)
    (self : NotionWriter) (st st1 : state World) :
  __init__ request key db st = (Ok self, st1) →
  (exchanges (get_current_pages_id request self st1).2).*1
  = (exchanges st).*1
    ++ [notion_request ("/databases/" +:+ db) "GET" None key;
        notion_request ("/databases/" +:+ db +:+ "/query") "POST" None key].
Proof.
  unfold __init__, bind, query_notion, lift, raise, ret. cbn [fst snd].
  match goal with |- context [ok ?res] => destruct (ok res) end; cbn [negb].
  - intros [= <- <-].
    unfold get_current_pages_id, bind, query_notion, lift.
    cbn [fst snd notion_api_key db_id world exchanges].
    match goal with |- context [json ?res] =>
      destruct (json res) as [answer|]
    end.
    + destruct (getitem answer "results") as [results|];
        [destruct (iter results)|]; cbn [snd exchanges];
        by rewrite !fmap_app, <- app_assoc.
    + cbn [snd exchanges]. by rewrite !fmap_app, <- app_assoc.
  - match goal with |- context [json ?res] =>
      destruct (json res) as [answer|]; [|done]
    end.
    by destruct (getitem answer "message").
Qed.

End WriterMore.

(** A writer built and used against a script of two accepting responses. *)
Lemma init_then_list_witness :
  __init__ playback "secret" "db" (start a_script)
  = (Ok a_writer, (__init__ playback "secret" "db" (start a_script)).2)
  ∧ (exchanges
       (get_current_pages_id playback a_writer
          (__init__ playback "secret" "db" (start a_script)).2).2).*1
    = (exchanges (start a_script)).*1
      ++ [notion_request ("/databases/" +:+ "db") "GET" None "secret";
          notion_request ("/databases/" +:+ "db" +:+ "/query") "POST" None
            "secret"].
Proof.
  assert (Hinit : __init__ playback "secret" "db" (start a_script)
                  = (Ok a_writer,
                     (__init__ playback "secret" "db" (start a_script)).2))
    by (vm_compute; reflexivity).
  split; [exact Hinit|].
  exact (init_then_list playback "secret" "db" a_writer (start a_script)
           _ Hinit).
Defined.
